(** * BanditParameter (emukit/core/bandit_parameter.py)

    A shallow embedding of the [BanditParameter] class and the proofs of
    the properties its specification states.

    Conventions of the embedding.
    - numpy numbers are IEEE binary64 floats ([PrimFloat.float], the
      float64 of numpy): [==] is [PrimFloat.eqb], under which NaN equals
      nothing and the two zeros are equal, [<] is [PrimFloat.ltb], and
      [-], [*], [+] and [sqrt] round as float64 does.
    - An [ndarray] is its shape together with its entries, row by row.
      The arrays handed to the methods are float64 arrays.  The domain
      carries its [dtype]: an [int64] table is held as the float64 values
      its entries promote to when they meet a float64 operand (exact for
      entries below 2^53 in magnitude, which is assumed), and the entries
      of a [str_] table are kept as numeric codes of its strings, on which
      [==] is meaningful and [-] is not.
    - A Python exception is a value of [exn]; a method that may raise
      returns a [result]. *)

From Stdlib Require Import String List ZArith QArith Bool Arith Lia.
From Stdlib Require Import Floats DecimalString DecimalNat.
Import ListNotations.

Set Warnings "-inexact-float".

Local Open Scope string_scope.
Local Open Scope nat_scope.
Local Open Scope list_scope.

(** ** Exceptions and results *)

Inductive exn : Type :=
| AssertionError
| ValueError (msg : string)
| NotImplementedError (msg : string)
| IndexError
| TypeError (msg : string)
| Exception (msg : string).

Inductive result (A : Type) : Type :=
| Ok (a : A)
| Raise (e : exn).

Arguments Ok {A} a.
Arguments Raise {A} e.

Definition bind {A B : Type} (m : result A) (k : A -> result B) : result B :=
  match m with
  | Ok a => k a
  | Raise e => Raise e
  end.

Notation "x <- m ;; k" := (bind m (fun x => k))
  (at level 61, m at next level, right associativity).

(** A [for] loop that builds a list and stops at the first exception. *)
Fixpoint for_each {A B : Type} (body : A -> result B) (l : list A)
  : result (list B) :=
  match l with
  | [] => Ok []
  | a :: l' =>
      b <- body a ;;
      bs <- for_each body l' ;;
      Ok (b :: bs)
  end.

Definition is_ok {A : Type} (m : result A) : bool :=
  match m with Ok _ => true | Raise _ => false end.

(** ** numpy arrays *)

(** Element types; [np.issubdtype(t, np.number)] holds of the first two. *)
Inductive dtype : Type := int64 | float64 | str_.

Definition issubdtype_number (t : dtype) : bool :=
  match t with
  | int64 | float64 => true
  | str_ => false
  end.

(** A 2-d array of shape [(length rows, ncols)]. *)
Record table : Type := Table { ncols : nat; rows : list (list float) }.

Definition nrows (t : table) : nat := length (rows t).

(** Every row has [ncols] entries. *)
Definition table_ok (t : table) : Prop :=
  Forall (fun r => length r = ncols t) (rows t).

Inductive ndarray : Type :=
| Array0 (v : float)                         (* shape () *)
| Array1 (xs : list float)                   (* shape (len xs,) *)
| Array2 (t : table)                     (* shape (nrows, ncols) *)
| ArrayN (d0 d1 d2 : nat) (ds : list nat). (* three axes or more *)

Definition ndim (a : ndarray) : nat :=
  match a with
  | Array0 _ => 0
  | Array1 _ => 1
  | Array2 _ => 2
  | ArrayN _ _ _ ds => 3 + length ds
  end.

Definition shape (a : ndarray) : list nat :=
  match a with
  | Array0 _ => []
  | Array1 xs => [length xs]
  | Array2 t => [nrows t; ncols t]
  | ArrayN d0 d1 d2 ds => d0 :: d1 :: d2 :: ds
  end.

(** [x.shape[1]], read only where [x.ndim >= 2]. *)
Definition shape1 (a : ndarray) : nat := nth 1 (shape a) 0.

(** [x.ravel()]: the entries in row-major order.  The entries of an
    array of three axes or more are never read by this class. *)
Definition ravel (a : ndarray) : list float :=
  match a with
  | Array0 v => [v]
  | Array1 xs => xs
  | Array2 t => concat (rows t)
  | ArrayN _ _ _ _ => []
  end.

(** Iterating a 2-d array yields its rows. *)
Definition iter_rows (a : ndarray) : list (list float) :=
  match a with
  | Array2 t => rows t
  | _ => []
  end.

(** *** Broadcasting of two 1-d operands

    Shapes [(D,)] and [(L,)] are compatible when they agree or one of
    them is 1; the operand of length 1 is then stretched. *)

Definition broadcastable (D L : nat) : bool :=
  (D =? L) || (D =? 1) || (L =? 1).

Definition broadcast {A B C : Type} (f : A -> B -> C)
  (a : list A) (b : list B) : list C :=
  match a, b with
  | [u], _ => map (f u) b
  | _, [v] => map (fun u => f u v) a
  | _, _ => map (fun p => f (fst p) (snd p)) (combine a b)
  end.

(** What [self.domain == x] can meet on line 68, once lines 63-67 have
    run: a scalar, or one row of [L] entries (a 1-d array of shape [(L,)]
    and the one-row list of shape [(1, L)] broadcast alike against
    [(N, D)]). *)
Inductive operand : Type :=
| Scalar (v : float)
| Row (xs : list float).

(** numpy raises on shapes that cannot be broadcast (older releases
    answered [==] with a plain [False], on which [.all(axis=1)] raises in
    its turn): either way no boolean comes back. *)
Definition msg_broadcast : string :=
  "operands could not be broadcast together".

(** [self.domain == x]: the boolean table of entrywise comparisons. *)
Definition np_equal (t : table) (x : operand) : result (list (list bool)) :=
  match x with
  | Scalar v => Ok (map (map (fun u => PrimFloat.eqb u v)) (rows t))
  | Row xs =>
      if broadcastable (ncols t) (length xs)
      then Ok (map (fun r => broadcast PrimFloat.eqb r xs) (rows t))
      else Raise (ValueError msg_broadcast)
  end.

(** [.all(axis=1)] and [.any()]. *)
Definition all_axis1 (m : list (list bool)) : list bool :=
  map (forallb (fun b => b)) m.

Definition any (v : list bool) : bool := existsb (fun b => b) v.

(** ** Sub-parameter descriptors *)

Record OneHotEncoding : Type := { categories : list float }.

(** The classes of [emukit.core] that [isinstance] tells apart.
    [OtherParameter] stands for every other subclass of the base class. *)
Inductive SubParameter : Type :=
| ContinuousParameter (name : string) (min_value max_value : float)
| DiscreteParameter (name : string) (domain : list float)
| CategoricalParameter (name : string) (encoding : OneHotEncoding)
| OtherParameter (name : string) (other_bounds : list (float * float)).

(** Python's [min] and [max] over the values: the running extreme is
    replaced by a value that compares strictly below (above) it. *)
Definition list_min (l : list float) : float :=
  match l with
  | [] => 0%float
  | v :: l' => fold_left (fun m u => if PrimFloat.ltb u m then u else m) l' v
  end.

Definition list_max (l : list float) : float :=
  match l with
  | [] => 0%float
  | v :: l' => fold_left (fun m u => if PrimFloat.ltb m u then u else m) l' v
  end.

(** Modelled from the spec: the [dimension] property of the descriptor
    classes, which live outside this file's source (sections 3 and 4.4):
    1 for Discrete (and Continuous), the one-hot width, that is the number
    of encoded levels, for Categorical. *)
Definition param_dimension (p : SubParameter) : nat :=
  match p with
  | ContinuousParameter _ _ _ => 1
  | DiscreteParameter _ _ => 1
  | CategoricalParameter _ e => length (categories e)
  | OtherParameter _ bs => length bs
  end.

(** Modelled from the spec: the [bounds] property of the descriptor
    classes (section 4.4): a Discrete descriptor contributes one pair
    spanning its minimum and maximum valid value, a Categorical one a pair
    per one-hot dimension (an indicator ranges over 0..1); a Continuous
    one its single (low, high) pair.  The spec leaves the pair of an empty
    value set open; [list_min] and [list_max] put 0 there. *)
Definition param_bounds (p : SubParameter) : list (float * float) :=
  match p with
  | ContinuousParameter _ lo hi => [(lo, hi)]
  | DiscreteParameter _ d => [(list_min d, list_max d)]
  | CategoricalParameter _ e => repeat (0%float, 1%float) (length (categories e))
  | OtherParameter _ bs => bs
  end.

(** ** The class *)

Record BanditParameter : Type := {
  bp_name : string;
  bp_dtype : dtype;
  bp_domain : table;
  parameters : list SubParameter
}.

(** Lines 54-68. *)
Inductive query : Type :=
| QFloat (v : float)                 (* a Python float *)
| QArray (a : ndarray)           (* a numpy array *)
| QList (row : list float).          (* the list [[rounded_value]] of [round] *)

Definition msg_shape : string :=
  "Expected x shape (n,) or (n, 1), actual is {}".

(** Lines 63-67: the [isinstance] block. *)
Definition normalise (x : query) : result operand :=
  match x with
  | QFloat v => Ok (Scalar v)
  | QList row => Ok (Row row)
  | QArray a =>
      if (ndim a =? 2) && (shape1 a =? 1) then Ok (Row (ravel a))
      else if 1 <? ndim a then Raise (ValueError msg_shape)
      else match a with
           | Array0 v => Ok (Scalar v)
           | Array1 xs => Ok (Row xs)
           | _ => Ok (Row (ravel a))        (* not reached: ndim <= 1 *)
           end
  end.

Definition check_in_domain (self : BanditParameter) (x : query)
  : result bool :=
  x' <- normalise x ;;
  eqs <- np_equal (bp_domain self) x' ;;
  Ok (any (all_axis1 eqs)).

(** *** Construction (lines 20-52) *)

Definition string_of_nat (i : nat) : string :=
  NilEmpty.string_of_uint (Nat.to_uint i).

(** Line 34: the names [f'{self.name}_{i}']. *)
Definition _create_parameter_names (self_name : string) (domain : table)
  : list string :=
  map (fun i => (self_name ++ "_" ++ string_of_nat i)%string)
      (seq 0 (ncols domain)).

(** [domain[:, cix]]. *)
Definition column (domain : table) (cix : nat) : list float :=
  map (fun r => nth cix r 0%float) (rows domain).

(** [np.unique]: the distinct values in increasing order, and after
    them a single NaN when the column has one (numpy 1.21 and later;
    earlier releases keep every NaN). *)
Fixpoint insert_unique (v : float) (l : list float) : list float :=
  match l with
  | [] => [v]
  | u :: l' =>
      if PrimFloat.eqb v u then l
      else if PrimFloat.ltb v u then v :: l
      else u :: insert_unique v l'
  end.

Definition np_unique (l : list float) : list float :=
  fold_right insert_unique [] (filter (fun v => negb (PrimFloat.is_nan v)) l)
  ++ (if existsb PrimFloat.is_nan l then [PrimFloat.nan] else []).

Fixpoint enumerate_from {A : Type} (i : nat) (l : list A) : list (nat * A) :=
  match l with
  | [] => []
  | a :: l' => (i, a) :: enumerate_from (S i) l'
  end.

Definition enumerate {A : Type} (l : list A) : list (nat * A) :=
  enumerate_from 0 l.

Definition msg_categorical : string :=
  "Categorical sub-parameters not yet fully supported".

(** Lines 36-52.  [parameter_names if parameter_names else ...]: [None]
    and the empty list are both falsy. *)
Definition _create_parameters (self_name : string) (dt : dtype)
  (domain : table) (parameter_names : option (list string))
  : result (list SubParameter) :=
  let parameter_names :=
    match parameter_names with
    | Some (n :: ns) => n :: ns
    | Some [] | None => _create_parameter_names self_name domain
    end in
  if negb (ncols domain =? length parameter_names) then Raise AssertionError
  else
    for_each
      (fun '(cix, parameter_name) =>
         let sub_param_domain := column domain cix in
         let domain_unq := np_unique sub_param_domain in
         if issubdtype_number dt
         then Ok (DiscreteParameter parameter_name domain_unq)
         else
           let encoding := {| categories := domain_unq |} in
           let parameter := CategoricalParameter parameter_name encoding in
           Raise (NotImplementedError msg_categorical))
      (enumerate parameter_names).

(** What a caller may hand over as [domain]. *)
Inductive pyobject : Type :=
| NotArray                              (* anything but an np.ndarray *)
| NdArray (dt : dtype) (a : ndarray).

(** Lines 27-31. *)
Definition __init__ (name : string) (domain : pyobject)
  (sub_parameter_names : option (list string)) : result BanditParameter :=
  match domain with
  | NotArray => Raise AssertionError
  | NdArray dt a =>
      match a with
      | Array2 t =>
          ps <- _create_parameters name dt t sub_parameter_names ;;
          Ok {| bp_name := name; bp_dtype := dt; bp_domain := t;
                parameters := ps |}
      | _ => Raise AssertionError           (* domain.ndim == 2 *)
      end
  end.

(** *** bounds (lines 70-75) and dimension (lines 101-109) *)

(** The comprehension [[pb for p in self.parameters for pb in p.bounds]]:
    two nested loops appending to the list under construction. *)
Definition bounds (self : BanditParameter) : list (float * float) :=
  fold_left
    (fun acc p => fold_left (fun acc' pb => acc' ++ [pb]) (param_bounds p) acc)
    (parameters self) [].

Definition msg_unsupported : string :=
  "Parameter type {type(p)} not supported.".

Fixpoint dimension_loop (ps : list SubParameter) (d : nat) : result nat :=
  match ps with
  | [] => Ok d
  | p :: ps' =>
      match p with
      | ContinuousParameter _ _ _ => dimension_loop ps' (d + 1)
      | DiscreteParameter _ _ => dimension_loop ps' (d + 1)
      | CategoricalParameter _ _ => dimension_loop ps' (d + param_dimension p)
      | OtherParameter _ _ => Raise (Exception msg_unsupported)
      end
  end.

Definition dimension (self : BanditParameter) : result nat :=
  dimension_loop (parameters self) 0.

(** *** round (lines 77-99) *)

(** [x.dot(y)]: the products are added up from the left, each product
    and each sum rounded to float64.  (A BLAS may fuse or reorder these
    operations; no theorem below depends on how the sum rounds.) *)
Definition dot (x y : list float) : float :=
  fold_left (fun acc p => PrimFloat.add acc (PrimFloat.mul (fst p) (snd p)))
            (combine x y) 0%float.

(** [np.linalg.norm] of a 1-d array: [sqrt(x.dot(x))]. *)
Definition linalg_norm (v : list float) : float := PrimFloat.sqrt (dot v v).

Definition msg_subtract : string :=
  "ufunc 'subtract' did not contain a loop with signature matching types".

(** [d - row] for a domain row [d]; numpy has no subtraction on [str_]. *)
Definition np_subtract (dt : dtype) (d row : list float)
  : result (list float) :=
  if negb (issubdtype_number dt) then Raise (TypeError msg_subtract)
  else if broadcastable (length d) (length row)
       then Ok (broadcast PrimFloat.sub d row)
       else Raise (ValueError msg_broadcast).

(** Line 94: [np.sqrt(np.sum((self.domain - row)**2))]; the value is
    never used but the subtraction may raise. *)
Definition np_dists (self : BanditParameter) (row : list float)
  : result float :=
  if negb (issubdtype_number (bp_dtype self))
  then Raise (TypeError msg_subtract)
  else if broadcastable (ncols (bp_domain self)) (length row)
       then Ok (PrimFloat.sqrt
                  (fold_left PrimFloat.add
                     (map (fun u => PrimFloat.mul u u)
                        (concat (map (fun d => broadcast PrimFloat.sub d row)
                                     (rows (bp_domain self)))))
                     0%float))
       else Raise (ValueError msg_broadcast).

(** Python's [min(iterable, key=...)]: the running minimum is replaced
    only by an item whose key is strictly smaller. *)
Fixpoint min_scan {A : Type} (key : A -> result float)
  (best : A) (kbest : float) (rest : list A) : result A :=
  match rest with
  | [] => Ok best
  | d :: rest' =>
      k <- key d ;;
      if PrimFloat.ltb k kbest then min_scan key d k rest'
      else min_scan key best kbest rest'
  end.

Definition py_min {A : Type} (l : list A) (key : A -> result float)
  : result A :=
  match l with
  | [] => Raise (ValueError "min() arg is an empty sequence")
  | d :: rest => k <- key d ;; min_scan key d k rest
  end.

(** [np.row_stack] of the one-row lists collected by [round]; each list
    [[rounded_value]] is kept as its single row. *)
Definition row_stack (x_rounded : list (list float)) : result ndarray :=
  match x_rounded with
  | [] => Raise (ValueError "need at least one array to concatenate")
  | r :: _ =>
      if forallb (fun r' => length r' =? length r) x_rounded
      then Ok (Array2 {| ncols := length r; rows := x_rounded |})
      else Raise (ValueError "all the input array dimensions must match")
  end.

(** The body of the [for] loop, lines 94-96. *)
Definition round_row (self : BanditParameter) (row : list float)
  : result (list float) :=
  dists <- np_dists self row ;;
  rounded_value <-
    py_min (rows (bp_domain self))
           (fun d => diff <- np_subtract (bp_dtype self) d row ;;
                     Ok (linalg_norm diff)) ;;
  Ok rounded_value.

(** The messages of lines 87 and 90, without the numbers that are
    formatted into them. *)
Definition msg_not_2d : string := "Expected 2d array, got ".
Definition msg_columns : string := "Expected {} column array, got {}".

Definition round (self : BanditParameter) (x : ndarray) : result ndarray :=
  if negb (ndim x =? 2) then Raise (ValueError msg_not_2d)
  else
    dim <- dimension self ;;
    if negb (shape1 x =? dim) then Raise (ValueError msg_columns)
    else
      x_rounded <- for_each (round_row self) (iter_rows x) ;;
      checks <- for_each (fun xr => check_in_domain self (QList xr))
                         x_rounded ;;
      if forallb (fun b => b) checks then row_stack x_rounded
      else Raise AssertionError.

(** *** sample_uniform (lines 112-119) *)

(** The global generator of [np.random]: an unbounded supply of raw draws
    and the position reached in it. *)
Record RandomState : Type := { draws : nat -> nat; position : nat }.

(** [np.random.choice(a, size)]: [size] indices below [a], with
    replacement. *)
Definition random_choice (g : RandomState) (a : nat) (size : Z)
  : result (list nat * RandomState) :=
  if (size <? 0)%Z then Raise (ValueError "negative dimensions are not allowed")
  else if (a =? 0) && negb (size =? 0)%Z
  then Raise (ValueError "a must be greater than 0 unless no samples are taken")
  else
    let n := Z.to_nat size in
    Ok (map (fun i => draws g (position g + i) mod a) (seq 0 n),
        {| draws := draws g; position := position g + n |}).

(** [domain[indices]]: the rows at the given positions. *)
Definition take_rows (domain : table) (indices : list nat)
  : result ndarray :=
  rs <- for_each (fun i => match nth_error (rows domain) i with
                           | Some r => Ok r
                           | None => Raise IndexError
                           end) indices ;;
  Ok (Array2 {| ncols := ncols domain; rows := rs |}).

Definition sample_uniform (self : BanditParameter) (g : RandomState)
  (point_count : Z) : result (ndarray * RandomState) :=
  drawn <- random_choice g (nrows (bp_domain self)) point_count ;;
  let '(indices, g') := drawn in
  out <- take_rows (bp_domain self) indices ;;
  Ok (out, g').

(** ** The running example of the specification *)

Definition example_table : table :=
  {| ncols := 2; rows := [[1; 10]; [1; 20]; [2; 10]]%float |}.

Definition example_self : BanditParameter :=
  {| bp_name := "x"; bp_dtype := float64; bp_domain := example_table;
     parameters := [DiscreteParameter "x_0" [1; 2]%float;
                    DiscreteParameter "x_1" [10; 20]%float] |}.

(** Two rows at the same distance from the point 1. *)
Definition tie_self : BanditParameter :=
  {| bp_name := "t"; bp_dtype := int64;
     bp_domain := {| ncols := 1; rows := [[0]; [2]]%float |};
     parameters := [DiscreteParameter "t_0" [0; 2]%float] |}.

(** A domain of shape (0, 2): no valid combination at all. *)
Definition empty_table : table := {| ncols := 2; rows := [] |}.

Definition empty_self : BanditParameter :=
  {| bp_name := "e"; bp_dtype := float64; bp_domain := empty_table;
     parameters := [DiscreteParameter "e_0" []; DiscreteParameter "e_1" []] |}.

(** ** Notions used in the statements *)

(** A number that is not NaN; numpy's [==] on two numbers. *)
Definition not_nan (u : float) : Prop := PrimFloat.is_nan u = false.
Definition same (u v : float) : Prop := PrimFloat.eqb u v = true.

(** The Euclidean distance from the domain row [d] to [row] in float64
    arithmetic: the square root of the sum, taken from the left, of the
    squared differences of the entries, every operation rounded. *)
Fixpoint sum_squared_differences (acc : float) (d row : list float)
  : float :=
  match d, row with
  | u :: d', v :: row' =>
      sum_squared_differences
        (PrimFloat.add acc (PrimFloat.mul (PrimFloat.sub u v)
                                          (PrimFloat.sub u v)))
        d' row'
  | _, _ => acc
  end.

Definition distance (d row : list float) : float :=
  PrimFloat.sqrt (sum_squared_differences 0%float d row).

(** [v] is the first item of [l] whose key is minimal: every earlier
    item has a strictly larger key, no later item has a smaller one. *)
Definition first_min {A : Type} (key : A -> float) (l : list A) (v : A)
  : Prop :=
  exists l1 l2,
    l = l1 ++ v :: l2 /\
    (forall d, In d l1 -> PrimFloat.ltb (key v) (key d) = true) /\
    (forall d, In d l2 -> PrimFloat.ltb (key d) (key v) = false).



(** A row with a NaN entry. *)
Definition nan_self : BanditParameter :=
  {| bp_name := "n"; bp_dtype := float64;
     bp_domain := {| ncols := 2;
                     rows := [[PrimFloat.nan; 1]; [0; 0]]%float |};
     parameters := [DiscreteParameter "n_0" [0; PrimFloat.nan]%float;
                    DiscreteParameter "n_1" [0; 1]%float] |}.

(** A domain whose only row has a NaN entry. *)
Definition nan_row_self : BanditParameter :=
  {| bp_name := "n"; bp_dtype := float64;
     bp_domain := {| ncols := 2; rows := [[PrimFloat.nan; 1]]%float |};
     parameters := [DiscreteParameter "n_0" [PrimFloat.nan]%float;
                    DiscreteParameter "n_1" [1]%float] |}.


Definition example_query : ndarray :=
  Array2 {| ncols := 2; rows := [[1.2; 10.9]]%float |}.

Definition is_discrete (p : SubParameter) : bool :=
  match p with DiscreteParameter _ _ => true | _ => false end.

Definition is_categorical (p : SubParameter) : bool :=
  match p with CategoricalParameter _ _ => true | _ => false end.

(** The kinds [dimension] has a branch for. *)
Definition supported (p : SubParameter) : bool :=
  match p with OtherParameter _ _ => false | _ => true end.

(** What a descriptor adds to [dimension]. *)
Definition contribution (p : SubParameter) : nat :=
  match p with
  | ContinuousParameter _ _ _ => 1
  | DiscreteParameter _ _ => 1
  | CategoricalParameter _ _ => param_dimension p
  | OtherParameter _ _ => 0
  end.

Definition continuous_self : BanditParameter :=
  {| bp_name := "c"; bp_dtype := float64;
     bp_domain := {| ncols := 1; rows := [[0]; [1]]%float |};
     parameters := [ContinuousParameter "c_0" 0 1] |}.

(** The names the constructor ends up with. *)
Definition effective_names (self_name : string) (domain : table)
  (parameter_names : option (list string)) : list string :=
  match parameter_names with
  | Some (n :: ns) => n :: ns
  | Some [] | None => _create_parameter_names self_name domain
  end.


Definition choice_indices (g : RandomState) (a n : nat) : list nat :=
  map (fun i => draws g (position g + i) mod a) (seq 0 n).

Definition example_rng : RandomState :=
  {| draws := fun i => 7 * i + 2; position := 0 |}.

(** The descriptors the constructor reflects from a numeric table:
    one Discrete descriptor per name, over the values of its column. *)
Definition reflected (domain : table) (parameter_names : list string)
  : list SubParameter :=
  map (fun '(cix, parameter_name) =>
         DiscreteParameter parameter_name (np_unique (column domain cix)))
      (enumerate parameter_names).

(** The rows of the running example, reordered and with one repeated. *)
Definition shuffled_self : BanditParameter :=
  {| bp_name := "x"; bp_dtype := float64;
     bp_domain := {| ncols := 2;
                     rows := [[2; 10]; [1; 10]; [1; 20]; [2; 10]]%float |};
     parameters := parameters example_self |}.

(** An object one of whose descriptors is of a kind [dimension] has no
    branch for. *)
Definition other_self : BanditParameter :=
  {| bp_name := "o"; bp_dtype := float64; bp_domain := example_table;
     parameters := [DiscreteParameter "o_0" [1; 2]%float;
                    OtherParameter "o_1" [(10, 20)]%float] |}.

(** A domain with a single valid combination. *)
Definition single_self : BanditParameter :=
  {| bp_name := "s"; bp_dtype := float64;
     bp_domain := {| ncols := 2; rows := [[3; 4]]%float |};
     parameters := [DiscreteParameter "s_0" [3]%float;
                    DiscreteParameter "s_1" [4]%float] |}.

(** * Properties *)

(** ** Results *)

Lemma bind_ok {A B : Type} (m : result A) (k : A -> result B) (b : B) :
  bind m k = Ok b -> exists a, m = Ok a /\ k a = Ok b.
Proof.
  destruct m as [a | e]; simpl; intros H.
  - exists a. split; [reflexivity | exact H].
  - discriminate H.
Qed.


Lemma for_each_Forall2 {A B : Type} (body : A -> result B) :
  forall (l : list A) (bs : list B),
    for_each body l = Ok bs -> Forall2 (fun a b => body a = Ok b) l bs.
Proof.
  induction l as [| a l IH]; simpl; intros bs H.
  - injection H as <-. constructor.
  - apply bind_ok in H. destruct H as [b [Hb H]].
    apply bind_ok in H. destruct H as [bs' [Hbs H]].
    injection H as <-. constructor; [exact Hb | apply IH; exact Hbs].
Qed.

Lemma for_each_total {A B : Type} (body : A -> result B) (f : A -> B) :
  forall l : list A,
    (forall a, In a l -> body a = Ok (f a)) ->
    for_each body l = Ok (map f l).
Proof.
  induction l as [| a l IH]; simpl; intros H.
  - reflexivity.
  - rewrite (H a (or_introl eq_refl)). simpl.
    rewrite IH by (intros a' Ha'; apply H; right; exact Ha'). reflexivity.
Qed.

(** ** Order and equality of float64

    The comparisons of IEEE binary64, from the specification of the
    primitive floats: [<] is asymmetric, and a number that is not NaN lies
    above the smaller or below the larger of two numbers in order. *)






Lemma not_nan_same (u : float) : not_nan u <-> same u u.
Proof.
  unfold not_nan, same, PrimFloat.is_nan. apply negb_false_iff.
Qed.

(** ** Broadcasting and exact comparison *)

Lemma broadcast_same_length {A B C : Type} (f : A -> B -> C) :
  forall (a : list A) (b : list B),
    length a = length b ->
    broadcast f a b = map (fun p => f (fst p) (snd p)) (combine a b).
Proof.
  intros a b Hlen. unfold broadcast.
  destruct a as [| u [| u' a']]; destruct b as [| v [| v' b']];
    simpl in *; try discriminate; reflexivity.
Qed.

Lemma broadcastable_refl (D : nat) : broadcastable D D = true.
Proof. unfold broadcastable. rewrite Nat.eqb_refl. reflexivity. Qed.

(** Entrywise [==] of two rows of equal length, followed by [all]. *)
Lemma all_equal_iff : forall r x : list float,
  length r = length x ->
  (forallb (fun b => b) (broadcast PrimFloat.eqb r x) = true
   <-> Forall2 same r x).
Proof.
  intros r x Hlen. rewrite (broadcast_same_length _ _ _ Hlen).
  revert x Hlen. induction r as [| u r IH]; intros [| v x] Hlen;
    simpl in *; try discriminate.
  - split; [constructor | reflexivity].
  - injection Hlen as Hlen. rewrite andb_true_iff, (IH x Hlen).
    split.
    + intros [Huv H]. constructor; assumption.
    + intros H. inversion H; subst. split; assumption.
Qed.

Lemma Forall2_same_refl (r : list float) :
  Forall not_nan r -> Forall2 same r r.
Proof.
  induction 1 as [| u r Hu _ IH]; constructor;
    [apply not_nan_same; exact Hu | exact IH].
Qed.

Lemma check_row_value (self : BanditParameter) (x : list float) :
  length x = ncols (bp_domain self) ->
  check_in_domain self (QArray (Array1 x)) =
  Ok (existsb (fun r => forallb (fun b => b) (broadcast PrimFloat.eqb r x))
              (rows (bp_domain self))).
Proof.
  intros Hlen. unfold check_in_domain. simpl.
  rewrite <- Hlen, broadcastable_refl. simpl. f_equal.
  unfold any, all_axis1.
  induction (rows (bp_domain self)) as [| r l IH]; simpl.
  - reflexivity.
  - rewrite IH. reflexivity.
Qed.

Lemma check_list_as_row (self : BanditParameter) (r : list float) :
  check_in_domain self (QList r) = check_in_domain self (QArray (Array1 r)).
Proof. reflexivity. Qed.

Lemma check_domain_row (self : BanditParameter) (r : list float) :
  table_ok (bp_domain self) ->
  In r (rows (bp_domain self)) ->
  Forall not_nan r ->
  check_in_domain self (QArray (Array1 r)) = Ok true.
Proof.
  intros Hok Hin Hnan.
  assert (Hlen : length r = ncols (bp_domain self)).
  { unfold table_ok in Hok. rewrite Forall_forall in Hok. apply Hok, Hin. }
  rewrite (check_row_value self r Hlen). f_equal.
  apply existsb_exists. exists r. split; [exact Hin |].
  apply all_equal_iff; [reflexivity | apply Forall2_same_refl; exact Hnan].
Qed.

(** C1, as the code has it: for a 1-d point [x] of length D,
    [check_in_domain] returns a boolean, and it is [true] exactly when
    some row of the domain equals [x] entry by entry under [==] (exact
    float64 equality, no tolerance).  So every domain row without a NaN
    entry is in the domain, and in the domain {[1,10],[1,20],[2,10]} the
    point [2,20] is not, although 2 occurs in column 0 and 20 in
    column 1. *)
Theorem check_in_domain_exact_row (self : BanditParameter) (x : list float)
  (Hok : table_ok (bp_domain self))
  (Hlen : length x = ncols (bp_domain self)) :
  (exists b : bool,
      check_in_domain self (QArray (Array1 x)) = Ok b /\
      (b = true <->
       exists r, In r (rows (bp_domain self)) /\ Forall2 same r x)) /\
  (forall r, In r (rows (bp_domain self)) -> Forall not_nan r ->
             check_in_domain self (QArray (Array1 r)) = Ok true) /\
  (check_in_domain example_self (QArray (Array1 [2; 20]%float)) = Ok false /\
   In 2%float (column example_table 0) /\
   In 20%float (column example_table 1)).
Proof.
  split; [| split].
  - eexists. split; [apply (check_row_value self x Hlen) |].
    rewrite existsb_exists.
    unfold table_ok in Hok. rewrite Forall_forall in Hok.
    split; intros [r [Hin H]]; exists r; (split; [exact Hin |]).
    + apply all_equal_iff; [rewrite Hlen; apply Hok, Hin | exact H].
    + apply all_equal_iff; [rewrite Hlen; apply Hok, Hin | exact H].
  - intros r Hin Hnan. apply check_domain_row; assumption.
  - split; [reflexivity |]. simpl. split; [right; right |]; tauto.
Qed.

Lemma example_table_ok : table_ok example_table.
Proof. unfold table_ok. simpl. repeat constructor. Qed.

Lemma check_in_domain_exact_row_witness :
  check_in_domain example_self (QArray (Array1 [1; 20]%float)) = Ok true.
Proof.
  apply (check_in_domain_exact_row example_self [1; 20]%float
           example_table_ok eq_refl).
  - simpl. tauto.
  - repeat constructor.
Defined.

(** C1 as stated fails on a row with a NaN entry: the table
    [[nan, 1], [0, 0]] is accepted by the constructor, and its own first
    row is not in the domain, since NaN is not equal to itself. *)
Lemma nan_row_not_in_domain :
  __init__ "n" (NdArray float64 (Array2 (bp_domain nan_self))) None
  = Ok nan_self /\
  In [PrimFloat.nan; 1]%float (rows (bp_domain nan_self)) /\
  check_in_domain nan_self (QArray (Array1 [PrimFloat.nan; 1]%float))
  = Ok false.
Proof. split; [reflexivity |]. split; [left |]; reflexivity. Qed.

(** ** Input normalisation *)

Lemma ravel_column : forall xs : list float,
  concat (map (fun u => [u]) xs) = xs.
Proof.
  induction xs as [| u xs IH]; simpl; [| rewrite IH]; reflexivity.
Qed.

Lemma broadcast_one_entry (v : float) (r : list float) :
  broadcast PrimFloat.eqb r [v] = map (fun u => PrimFloat.eqb u v) r.
Proof. destruct r as [| u [| u' r']]; reflexivity. Qed.

Lemma scalar_as_point (self : BanditParameter) (v : float) :
  check_in_domain self (QFloat v)
  = check_in_domain self (QArray (Array1 [v])).
Proof.
  unfold check_in_domain. simpl.
  replace (broadcastable (ncols (bp_domain self)) 1) with true
    by (unfold broadcastable; simpl; rewrite orb_true_r; reflexivity).
  simpl. f_equal. f_equal.
  induction (rows (bp_domain self)) as [| r l IH]; simpl;
    [| rewrite IH, broadcast_one_entry]; reflexivity.
Qed.

(** C7: how [check_in_domain] normalises its argument.  A 1-d point goes
    to the comparison unchanged; a column of shape (D, 1) with the entries
    [xs], one per row, is flattened to the 1-d point [xs] of length D and
    is answered as that point is; a scalar is accepted (when D = 1, and
    for any other D) and is answered as the one-entry point is, with a
    boolean; every other 2-d array, and every array of three axes or
    more, raises the shape error and no boolean is returned. *)
Theorem check_in_domain_normalisation (self : BanditParameter)
  (x xs : list float) (col : table) (v : float) (a : ndarray)
  (Hcol : rows col = map (fun u => [u]) xs) (Hone : ncols col = 1)
  (Hbad : 2 <= ndim a /\ (ndim a = 2 -> shape1 a <> 1)) :
  normalise (QArray (Array1 x)) = Ok (Row x) /\
  (normalise (QArray (Array2 col)) = Ok (Row xs) /\
   length xs = nrows col /\
   check_in_domain self (QArray (Array2 col)) =
   check_in_domain self (QArray (Array1 xs))) /\
  (check_in_domain self (QFloat v) =
   check_in_domain self (QArray (Array1 [v])) /\
   is_ok (check_in_domain self (QFloat v)) = true) /\
  check_in_domain self (QArray a) = Raise (ValueError msg_shape).
Proof.
  split; [reflexivity |]. split; [| split].
  - assert (Hn : normalise (QArray (Array2 col)) = Ok (Row xs)).
    { unfold normalise. simpl. unfold shape1. simpl. rewrite Hone. simpl.
      rewrite Hcol, ravel_column. reflexivity. }
    split; [exact Hn |]. split.
    + unfold nrows. rewrite Hcol, length_map. reflexivity.
    + unfold check_in_domain. rewrite Hn. reflexivity.
  - split; [apply scalar_as_point | reflexivity].
  - destruct Hbad as [Hge Hne]. unfold check_in_domain, normalise.
    destruct a as [q | ys | t | d0 d1 d2 ds]; simpl in *; try lia.
    + specialize (Hne eq_refl). unfold shape1 in *. simpl in *.
      apply Nat.eqb_neq in Hne. rewrite Hne. reflexivity.
    + reflexivity.
Qed.

Lemma check_in_domain_normalisation_witness :
  check_in_domain example_self
    (QArray (Array2 {| ncols := 1; rows := [[1]; [20]]%float |}))
  = check_in_domain example_self (QArray (Array1 [1; 20]%float)) /\
  check_in_domain example_self
    (QArray (Array2 {| ncols := 2; rows := [[1; 10]]%float |}))
  = Raise (ValueError msg_shape).
Proof.
  assert (Hbad :
    2 <= ndim (Array2 {| ncols := 2; rows := [[1; 10]]%float |}) /\
    (ndim (Array2 {| ncols := 2; rows := [[1; 10]]%float |}) = 2 ->
     shape1 (Array2 {| ncols := 2; rows := [[1; 10]]%float |}) <> 1))
    by (simpl; split; [lia | intros _; unfold shape1; simpl; lia]).
  pose proof (check_in_domain_normalisation example_self [1; 20]%float
                [1; 20]%float {| ncols := 1; rows := [[1]; [20]]%float |}
                1%float
                (Array2 {| ncols := 2; rows := [[1; 10]]%float |})
                eq_refl eq_refl Hbad) as [_ [[_ [_ Hflat]] [_ Hshape]]].
  split; [exact Hflat | exact Hshape].
Defined.

(** ** Nearest-row scan *)

Lemma first_min_in {A : Type} (key : A -> float) (l : list A) (v : A) :
  first_min key l v -> In v l.
Proof.
  intros [l1 [l2 [-> _]]]. apply in_or_app. right. left. reflexivity.
Qed.

Section MinScan.
Context {A : Type}.
Variable key : A -> result float.
Variable k : A -> float.



Lemma min_scan_In : forall (rest : list A) (best : A) (kb : float) (v : A),
  min_scan key best kb rest = Ok v -> v = best \/ In v rest.
Proof.
  induction rest as [| d rest IH]; simpl; intros best kb v H.
  - injection H as <-. left. reflexivity.
  - apply bind_ok in H. destruct H as [kd [_ H]].
    destruct (PrimFloat.ltb kd kb); apply IH in H;
      destruct H as [-> | H]; auto.
Qed.

Lemma py_min_In (l : list A) (v : A) : py_min l key = Ok v -> In v l.
Proof.
  destruct l as [| d rest]; simpl; [discriminate |]. intros H.
  apply bind_ok in H. destruct H as [kd [_ H]].
  apply min_scan_In in H. destruct H as [-> | H]; auto.
Qed.

Lemma min_scan_returns : forall (rest : list A) (best : A) (kb : float),
  (forall d, In d rest -> key d = Ok (k d)) ->
  exists v, min_scan key best kb rest = Ok v.
Proof.
  induction rest as [| d rest IH]; simpl; intros best kb Hkey.
  - exists best. reflexivity.
  - rewrite (Hkey d (or_introl eq_refl)). simpl.
    destruct (PrimFloat.ltb (k d) kb); apply IH;
      intros d' Hd'; apply Hkey; right; exact Hd'.
Qed.

Lemma py_min_returns (l : list A) :
  l <> [] ->
  (forall d, In d l -> key d = Ok (k d)) ->
  exists v, py_min l key = Ok v.
Proof.
  destruct l as [| d rest]; [congruence |]. intros _ Hkey.
  simpl. rewrite (Hkey d (or_introl eq_refl)). simpl.
  apply min_scan_returns. intros d' Hd'. apply Hkey. right. exact Hd'.
Qed.
End MinScan.

Lemma dot_differences : forall (d row : list float) (acc : float),
  length d = length row ->
  fold_left (fun a p => PrimFloat.add a (PrimFloat.mul (fst p) (snd p)))
    (combine (map (fun p => PrimFloat.sub (fst p) (snd p)) (combine d row))
             (map (fun p => PrimFloat.sub (fst p) (snd p)) (combine d row)))
    acc
  = sum_squared_differences acc d row.
Proof.
  induction d as [| u d IH]; intros [| v row] acc Hlen;
    simpl in *; try discriminate; try reflexivity.
  injection Hlen as Hlen. apply IH. exact Hlen.
Qed.

Lemma linalg_norm_distance (d row : list float) :
  length d = length row ->
  linalg_norm (broadcast PrimFloat.sub d row) = distance d row.
Proof.
  intros Hlen. unfold linalg_norm, distance, dot.
  rewrite (broadcast_same_length _ _ _ Hlen), (dot_differences _ _ _ Hlen).
  reflexivity.
Qed.

(** The key of the scan on line 95 is the computed distance to [row]. *)
Lemma round_key_distance (dt : dtype) (d row : list float) :
  issubdtype_number dt = true ->
  length d = length row ->
  (diff <- np_subtract dt d row ;; Ok (linalg_norm diff))
  = Ok (distance d row).
Proof.
  intros Hnum Hlen. unfold np_subtract. rewrite Hnum, Hlen at 1.
  rewrite broadcastable_refl. simpl.
  rewrite (linalg_norm_distance _ _ Hlen). reflexivity.
Qed.

(** ** The dimension loop *)

Lemma dimension_loop_sum : forall (ps : list SubParameter) (d : nat),
  dimension_loop ps d =
  if forallb supported ps then Ok (d + list_sum (map contribution ps))
  else Raise (Exception msg_unsupported).
Proof.
  induction ps as [| p ps IH]; intros d; simpl.
  - rewrite Nat.add_0_r. reflexivity.
  - destruct p; simpl; try reflexivity; rewrite IH;
      destruct (forallb supported ps); try reflexivity; f_equal; lia.
Qed.

Lemma dimension_value (self : BanditParameter) :
  dimension self =
  if forallb supported (parameters self)
  then Ok (list_sum (map contribution (parameters self)))
  else Raise (Exception msg_unsupported).
Proof. unfold dimension. rewrite dimension_loop_sum. reflexivity. Qed.

(** ** round *)

Lemma row_stack_rows (xr : list (list float)) (out : ndarray) :
  row_stack xr = Ok out -> iter_rows out = xr /\ xr <> [].
Proof.
  unfold row_stack. destruct xr as [| r xr']; [discriminate |].
  destruct (forallb _ _); [| discriminate].
  intros H. injection H as <-. split; [reflexivity | discriminate].
Qed.

Lemma round_inv (self : BanditParameter) (x out : ndarray) :
  round self x = Ok out ->
  ndim x = 2 /\
  exists dim x_rounded checks,
    dimension self = Ok dim /\ shape1 x = dim /\
    for_each (round_row self) (iter_rows x) = Ok x_rounded /\
    for_each (fun xr => check_in_domain self (QList xr)) x_rounded
      = Ok checks /\
    forallb (fun b => b) checks = true /\
    row_stack x_rounded = Ok out.
Proof.
  unfold round. destruct (ndim x =? 2) eqn:Hnd; simpl; [| discriminate].
  intros H. apply Nat.eqb_eq in Hnd. split; [exact Hnd |].
  apply bind_ok in H. destruct H as [dim [Hdim H]].
  destruct (shape1 x =? dim) eqn:Hsh; simpl in H; [| discriminate].
  apply Nat.eqb_eq in Hsh.
  apply bind_ok in H. destruct H as [xr [Hxr H]].
  apply bind_ok in H. destruct H as [checks [Hchecks H]].
  destruct (forallb (fun b => b) checks) eqn:Hall; [| discriminate].
  exists dim, xr, checks. repeat split; assumption.
Qed.

Lemma round_row_In (self : BanditParameter) (row r : list float) :
  round_row self row = Ok r -> In r (rows (bp_domain self)).
Proof.
  unfold round_row. intros H.
  apply bind_ok in H. destruct H as [_ [_ H]].
  apply bind_ok in H. destruct H as [v [Hv H]].
  injection H as <-. exact (py_min_In _ _ _ Hv).
Qed.

Lemma Forall2_In_r {A B : Type} (P : A -> B -> Prop) :
  forall (l : list A) (l' : list B) (b : B),
    Forall2 P l l' -> In b l' -> exists a, In a l /\ P a b.
Proof.
  induction 1 as [| a b' l l' Hab _ IH]; simpl; intros Hin.
  - contradiction.
  - destruct Hin as [<- | Hin].
    + exists a. auto.
    + destruct (IH Hin) as [a' [Ha' HP]]. exists a'. auto.
Qed.

Lemma Forall2_In_l {A B : Type} (P : A -> B -> Prop) :
  forall (l : list A) (l' : list B) (a : A),
    Forall2 P l l' -> In a l -> exists b, In b l' /\ P a b.
Proof.
  induction 1 as [| a' b l l' Hab _ IH]; simpl; intros Hin.
  - contradiction.
  - destruct Hin as [<- | Hin].
    + exists b. auto.
    + destruct (IH Hin) as [b' [Hb' HP]]. exists b'. auto.
Qed.

(** The assertion on line 98 never fails on a well-formed domain without
    NaN entries. *)
Lemma round_row_checks (self : BanditParameter) (xr : list (list float)) :
  table_ok (bp_domain self) ->
  Forall (Forall not_nan) (rows (bp_domain self)) ->
  Forall (fun r => In r (rows (bp_domain self))) xr ->
  for_each (fun r => check_in_domain self (QList r)) xr
  = Ok (map (fun _ => true) xr).
Proof.
  intros Hok Hnan Hin. apply for_each_total. intros r Hr.
  rewrite Forall_forall in Hin, Hnan. rewrite check_list_as_row.
  apply check_domain_row; auto.
Qed.

Lemma for_each_raise {A B : Type} (body : A -> result B) (e : exn) :
  forall l : list A,
    for_each body l = Raise e -> exists a, In a l /\ body a = Raise e.
Proof.
  induction l as [| a l IH]; simpl; intros H; [discriminate |].
  destruct (body a) as [b | e'] eqn:Hb; simpl in H.
  - destruct (for_each body l) as [bs | e'']; simpl in H; [discriminate |].
    destruct (IH H) as [a' [Ha' He]]. exists a'. auto.
  - injection H as <-. exists a. auto.
Qed.

Lemma min_scan_raise {A : Type} (key : A -> result float) (e : exn) :
  forall (rest : list A) (best : A) (kb : float),
    min_scan key best kb rest = Raise e ->
    exists d, In d rest /\ key d = Raise e.
Proof.
  induction rest as [| d rest IH]; simpl; intros best kb H; [discriminate |].
  destruct (key d) as [k | e'] eqn:Hk; simpl in H.
  - destruct (PrimFloat.ltb k kb); apply IH in H;
      destruct H as [d' [Hd' He]]; exists d'; auto.
  - injection H as <-. exists d. auto.
Qed.

(** What [round_row] can raise comes from numpy or from [min]. *)
Lemma round_row_raise (self : BanditParameter) (row : list float) (e : exn) :
  round_row self row = Raise e -> e <> AssertionError.
Proof.
  assert (Hsub : forall d e', np_subtract (bp_dtype self) d row = Raise e' ->
                              e' <> AssertionError).
  { intros d e'. unfold np_subtract.
    destruct (issubdtype_number (bp_dtype self)); simpl;
      [destruct (broadcastable _ _) |]; intros H; inversion H; discriminate. }
  assert (Hkey : forall d e',
             (diff <- np_subtract (bp_dtype self) d row ;;
              Ok (linalg_norm diff)) = Raise e' -> e' <> AssertionError).
  { intros d e' H.
    destruct (np_subtract (bp_dtype self) d row) eqn:E; simpl in H;
      [discriminate |]. injection H as <-. exact (Hsub d _ E). }
  unfold round_row, np_dists.
  destruct (issubdtype_number (bp_dtype self)); simpl;
    [| intros H; inversion H; discriminate].
  destruct (broadcastable _ _); simpl;
    [| intros H; inversion H; discriminate].
  destruct (rows (bp_domain self)) as [| d rest]; simpl;
    [intros H; inversion H; discriminate |].
  destruct (np_subtract (bp_dtype self) d row) as [diff | e'] eqn:Ed; simpl.
  - destruct (min_scan _ d (linalg_norm diff) rest) as [v | e'] eqn:Em;
      simpl; [discriminate |].
    intros H. injection H as <-. apply min_scan_raise in Em.
    destruct Em as [d' [_ Hd']]. exact (Hkey d' _ Hd').
  - intros H. injection H as <-. exact (Hsub d _ Ed).
Qed.

Lemma for_each_rows_in (self : BanditParameter)
  (l xr : list (list float)) :
  for_each (round_row self) l = Ok xr ->
  Forall (fun r => In r (rows (bp_domain self))) xr.
Proof.
  intros H. apply for_each_Forall2 in H. apply Forall_forall. intros r Hr.
  destruct (Forall2_In_r _ _ _ r H Hr) as [row [_ Hrow]].
  exact (round_row_In _ _ _ Hrow).
Qed.

(** C2: whenever [round] accepts its input and returns, every row of the
    result is a row of the domain table itself and passes
    [check_in_domain]; the check is the assertion [round] makes on the
    rows it collected before it stacks them.  On a well-formed domain
    table without NaN entries that assertion never fails. *)
Theorem round_lands_on_domain (self : BanditParameter) (x out : ndarray)
  (H : round self x = Ok out) :
  (forall r, In r (iter_rows out) ->
     check_in_domain self (QArray (Array1 r)) = Ok true /\
     In r (rows (bp_domain self))) /\
  (table_ok (bp_domain self) ->
   Forall (Forall not_nan) (rows (bp_domain self)) ->
   forall x' : ndarray, round self x' <> Raise AssertionError).
Proof.
  split.
  - apply round_inv in H.
    destruct H as [_ [dim [xr [checks [_ [_ [Hxr [Hchecks [Hall Hstack]]]]]]]]].
    apply row_stack_rows in Hstack. destruct Hstack as [-> _].
    intros r Hr. split.
    + apply for_each_Forall2 in Hchecks.
      destruct (Forall2_In_l _ _ _ r Hchecks Hr) as [b [Hb Hcheck]].
      rewrite forallb_forall in Hall. rewrite (Hall b Hb) in Hcheck.
      rewrite <- check_list_as_row. exact Hcheck.
    + pose proof (for_each_rows_in _ _ _ Hxr) as Hin.
      rewrite Forall_forall in Hin. apply Hin, Hr.
  - clear H. intros Hok Hnan x'. unfold round.
    destruct (ndim x' =? 2); simpl; [| discriminate].
    rewrite dimension_value.
    destruct (forallb supported (parameters self)); simpl; [| discriminate].
    destruct (shape1 x' =? _); simpl; [| discriminate].
    destruct (for_each (round_row self) (iter_rows x')) as [xr | e] eqn:Hxr;
      simpl.
    + pose proof (for_each_rows_in _ _ _ Hxr) as Hin.
      rewrite (round_row_checks self xr Hok Hnan Hin). simpl.
      replace (forallb (fun b => b) (map (fun _ => true) xr)) with true.
      * unfold row_stack. destruct xr as [| r xr']; [discriminate |].
        destruct (forallb _ _); discriminate.
      * symmetry. apply forallb_forall. intros b Hb.
        apply in_map_iff in Hb. destruct Hb as [_ [<- _]]. reflexivity.
    + apply for_each_raise in Hxr. destruct Hxr as [row [_ Hrow]].
      apply round_row_raise in Hrow. congruence.
Qed.

Lemma round_lands_on_domain_witness :
  check_in_domain example_self (QArray (Array1 [1; 10]%float)) = Ok true /\
  In [1; 10]%float (rows (bp_domain example_self)).
Proof.
  apply (proj1 (round_lands_on_domain example_self example_query
                  (Array2 {| ncols := 2; rows := [[1; 10]]%float |})
                  eq_refl)).
  simpl. left. reflexivity.
Defined.






(** ** dimension and bounds *)

Lemma append_each {A : Type} : forall (l acc : list A),
  fold_left (fun acc' pb => acc' ++ [pb]) l acc = acc ++ l.
Proof.
  induction l as [| a l IH]; intros acc; simpl.
  - rewrite app_nil_r. reflexivity.
  - rewrite IH, <- app_assoc. reflexivity.
Qed.

Lemma bounds_loop : forall (ps : list SubParameter) (acc : list (float * float)),
  fold_left
    (fun acc p => fold_left (fun acc' pb => acc' ++ [pb]) (param_bounds p) acc)
    ps acc
  = acc ++ concat (map param_bounds ps).
Proof.
  induction ps as [| p ps IH]; intros acc; simpl.
  - rewrite app_nil_r. reflexivity.
  - rewrite IH, append_each, <- app_assoc. reflexivity.
Qed.

Lemma bounds_concat (self : BanditParameter) :
  bounds self = concat (map param_bounds (parameters self)).
Proof. unfold bounds. rewrite bounds_loop. reflexivity. Qed.

Lemma bounds_length_supported : forall ps : list SubParameter,
  forallb supported ps = true ->
  length (concat (map param_bounds ps)) = list_sum (map contribution ps).
Proof.
  induction ps as [| p ps IH]; simpl; intros H.
  - reflexivity.
  - apply andb_true_iff in H. destruct H as [Hp Hps].
    rewrite length_app, (IH Hps). f_equal.
    destruct p; simpl in *; try reflexivity; try discriminate.
    apply repeat_length.
Qed.

(** C4, as the code has it: [dimension] is the sum of the contributions
    of the descriptors, 1 for a Continuous or a Discrete one and the
    one-hot width for a Categorical one, and it raises the "not supported"
    exception as soon as a descriptor of any other kind is present. *)
Theorem dimension_sum_of_contributions (self : BanditParameter) :
  dimension self =
    (if forallb supported (parameters self)
     then Ok (list_sum (map contribution (parameters self)))
     else Raise (Exception msg_unsupported)) /\
  (forall name lo hi, contribution (ContinuousParameter name lo hi) = 1) /\
  (forall name d, contribution (DiscreteParameter name d) = 1) /\
  (forall name e, contribution (CategoricalParameter name e)
                  = length (categories e)) /\
  (forall name bs, supported (OtherParameter name bs) = false).
Proof.
  split.
  - unfold dimension. rewrite dimension_loop_sum.
    destruct (forallb supported (parameters self)); reflexivity.
  - repeat split; reflexivity.
Qed.

(** C4 as stated fails: a Continuous descriptor is neither Discrete nor
    Categorical, yet [dimension] counts it as 1 instead of failing. *)
Lemma dimension_counts_continuous :
  ~ (forall self : BanditParameter,
        (exists p, In p (parameters self) /\
                   is_discrete p = false /\ is_categorical p = false) ->
        exists e, dimension self = Raise e).
Proof.
  intros Hclaim.
  destruct (Hclaim continuous_self) as [e He].
  - exists (ContinuousParameter "c_0" 0 1). simpl. auto.
  - discriminate He.
Qed.

(** C5: [bounds] is the concatenation, in sub-parameter order, of the
    bounds lists of the descriptors; its length is the value of
    [dimension] (which is defined exactly when every descriptor is of a
    supported kind); and the purely discrete domain
    {[1,10],[1,20],[2,10]} has bounds [(1,2), (10,20)]. *)
Theorem bounds_concatenation (self : BanditParameter) :
  bounds self = concat (map param_bounds (parameters self)) /\
  dimension self =
    (if forallb supported (parameters self)
     then Ok (length (bounds self))
     else Raise (Exception msg_unsupported)) /\
  (__init__ "x" (NdArray float64 (Array2 example_table)) None
     = Ok example_self /\
   bounds example_self = [(1, 2); (10, 20)]%float /\
   dimension example_self = Ok 2).
Proof.
  split; [apply bounds_concat |]. split.
  - rewrite dimension_value, bounds_concat.
    destruct (forallb supported (parameters self)) eqn:E; [| reflexivity].
    rewrite (bounds_length_supported _ E). reflexivity.
  - repeat split; reflexivity.
Qed.

(** ** Construction *)

Lemma default_names_length (self_name : string) (domain : table) :
  length (_create_parameter_names self_name domain) = ncols domain.
Proof.
  unfold _create_parameter_names. rewrite length_map, length_seq.
  reflexivity.
Qed.

Lemma create_parameters_unfold (self_name : string) (dt : dtype)
  (domain : table) (names : option (list string)) :
  _create_parameters self_name dt domain names =
  if negb (ncols domain =? length (effective_names self_name domain names))
  then Raise AssertionError
  else
    for_each
      (fun '(cix, parameter_name) =>
         if issubdtype_number dt
         then Ok (DiscreteParameter parameter_name
                    (np_unique (column domain cix)))
         else Raise (NotImplementedError msg_categorical))
      (enumerate (effective_names self_name domain names)).
Proof.
  unfold _create_parameters, effective_names.
  destruct names as [[| n ns] |]; reflexivity.
Qed.

Lemma enumerate_from_length {A : Type} : forall (l : list A) (i : nat),
  length (enumerate_from i l) = length l.
Proof.
  induction l as [| a l IH]; intros i; simpl; [| rewrite IH]; reflexivity.
Qed.

Lemma for_each_discrete (domain : table) :
  forall (l : list (nat * string)) (ps : list SubParameter) (dt : dtype),
    for_each
      (fun '(cix, parameter_name) =>
         if issubdtype_number dt
         then Ok (DiscreteParameter parameter_name
                    (np_unique (column domain cix)))
         else Raise (NotImplementedError msg_categorical)) l = Ok ps ->
    Forall (fun p => is_discrete p = true) ps /\
    length ps = length l /\
    (l <> [] -> issubdtype_number dt = true).
Proof.
  induction l as [| [cix n] l IH]; simpl; intros ps dt H.
  - injection H as <-. repeat split; [constructor | congruence].
  - apply bind_ok in H. destruct H as [p [Hp H]].
    apply bind_ok in H. destruct H as [ps' [Hps H]]. injection H as <-.
    destruct (issubdtype_number dt) eqn:Hnum; [| discriminate Hp].
    injection Hp as <-.
    destruct (IH ps' dt) as [Hall [Hlen _]].
    { rewrite Hnum. exact Hps. }
    repeat split.
    + constructor; [reflexivity | exact Hall].
    + simpl. f_equal. exact Hlen.
Qed.


Lemma init_inv (name : string) (dom : pyobject)
  (names : option (list string)) (self : BanditParameter) :
  __init__ name dom names = Ok self ->
  dom = NdArray (bp_dtype self) (Array2 (bp_domain self)) /\
  bp_name self = name /\
  _create_parameters name (bp_dtype self) (bp_domain self) names
  = Ok (parameters self).
Proof.
  unfold __init__. destruct dom as [| dt a]; [discriminate |].
  destruct a as [v | xs | t | d0 d1 d2 ds]; try discriminate.
  intros H. apply bind_ok in H. destruct H as [ps [Hps H]].
  injection H as <-. simpl. auto.
Qed.

Lemma all_discrete_supported : forall ps : list SubParameter,
  Forall (fun p => is_discrete p = true) ps ->
  forallb supported ps = true /\
  list_sum (map contribution ps) = length ps /\
  Forall (fun p => param_dimension p = 1 /\ length (param_bounds p) = 1) ps.
Proof.
  induction 1 as [| p ps Hp _ [IH1 [IH2 IH3]]]; simpl.
  - repeat split. constructor.
  - destruct p; try discriminate. simpl. rewrite IH1, IH2.
    repeat split. constructor; [split; reflexivity | exact IH3].
Qed.

Lemma constructed_shape (name : string) (dom : pyobject)
  (names : option (list string)) (self : BanditParameter) :
  __init__ name dom names = Ok self ->
  Forall (fun p => is_discrete p = true) (parameters self) /\
  length (parameters self) = ncols (bp_domain self) /\
  (0 < ncols (bp_domain self) -> issubdtype_number (bp_dtype self) = true).
Proof.
  intros H. apply init_inv in H. destruct H as [_ [_ H]].
  rewrite create_parameters_unfold in H.
  destruct (ncols (bp_domain self)
            =? length (effective_names name (bp_domain self) names))
    eqn:Hlen; simpl in H; [| discriminate].
  apply Nat.eqb_eq in Hlen.
  apply for_each_discrete in H. destruct H as [Hall [Hl Hnum]].
  unfold enumerate in *. rewrite enumerate_from_length in Hl.
  repeat split; [exact Hall | congruence |].
  intros Hpos. apply Hnum. intros E.
  apply (f_equal (@length _)) in E. rewrite enumerate_from_length in E.
  simpl in E. lia.
Qed.

Lemma constructed_dimension (name : string) (dom : pyobject)
  (names : option (list string)) (self : BanditParameter) :
  __init__ name dom names = Ok self ->
  dimension self = Ok (ncols (bp_domain self)).
Proof.
  intros H. destruct (constructed_shape _ _ _ _ H) as [Hall [Hlen _]].
  destruct (all_discrete_supported _ Hall) as [Hsup [Hsum _]].
  rewrite dimension_value, Hsup, Hsum, Hlen. reflexivity.
Qed.

(** C10: a BanditParameter that was constructed has one descriptor per
    column of its domain, every one of them Discrete with dimension
    contribution 1 and a single bound pair; a table with at least one
    column that is not numeric never gets this far.  Hence [dimension] is
    the number of columns and [bounds] has one pair per column. *)
Theorem constructed_discrete_only (name : string) (dom : pyobject)
  (names : option (list string)) (self : BanditParameter)
  (H : __init__ name dom names = Ok self) :
  Forall (fun p => is_discrete p = true /\ param_dimension p = 1 /\
                   length (param_bounds p) = 1) (parameters self) /\
  length (parameters self) = ncols (bp_domain self) /\
  (0 < ncols (bp_domain self) -> issubdtype_number (bp_dtype self) = true) /\
  dimension self = Ok (ncols (bp_domain self)) /\
  length (bounds self) = ncols (bp_domain self).
Proof.
  destruct (constructed_shape _ _ _ _ H) as [Hall [Hlen Hnum]].
  destruct (all_discrete_supported _ Hall) as [Hsup [Hsum Hone]].
  split; [| split; [exact Hlen | split; [exact Hnum | split]]].
  - rewrite Forall_forall in *. intros p Hp.
    destruct (Hone p Hp) as [Hd Hb]. auto.
  - exact (constructed_dimension _ _ _ _ H).
  - rewrite bounds_concat, (bounds_length_supported _ Hsup), Hsum.
    exact Hlen.
Qed.

Lemma constructed_discrete_only_witness :
  dimension example_self = Ok 2 /\ length (bounds example_self) = 2.
Proof.
  exact (proj2 (proj2 (proj2
    (constructed_discrete_only "x" (NdArray float64 (Array2 example_table))
       None example_self eq_refl)))).
Defined.




(** ** sample_uniform *)

Lemma take_rows_value (domain : table) : forall indices : list nat,
  Forall (fun i => i < nrows domain) indices ->
  take_rows domain indices =
  Ok (Array2 {| ncols := ncols domain;
                rows := map (fun i => nth i (rows domain) []) indices |}).
Proof.
  intros indices H. unfold take_rows.
  rewrite (for_each_total _ (fun i => nth i (rows domain) [])); [reflexivity |].
  rewrite Forall_forall in H. intros i Hi. specialize (H i Hi).
  unfold nrows in H.
  destruct (nth_error (rows domain) i) eqn:E.
  - rewrite (nth_error_nth _ _ _ E). reflexivity.
  - apply nth_error_None in E. lia.
Qed.

Lemma choice_indices_bound (g : RandomState) (a n : nat) :
  0 < a -> Forall (fun i => i < a) (choice_indices g a n).
Proof.
  intros Ha. unfold choice_indices. apply Forall_forall. intros i Hi.
  apply in_map_iff in Hi. destruct Hi as [j [<- _]].
  apply Nat.mod_upper_bound. lia.
Qed.

(** C6, as the code has it: for a point count [n >= 0], and a domain with
    at least one row unless [n = 0], [sample_uniform(n)] returns a table
    of shape (n, D) whose rows are the rows of the domain found at [n]
    drawn row indices (whole rows, the same row possibly more than once);
    so every returned row is a domain row, and passes [check_in_domain]
    when it has no NaN entry; and for [n = 0] the table is empty. *)
Theorem sample_uniform_rows (self : BanditParameter) (g : RandomState)
  (n : Z)
  (Hok : table_ok (bp_domain self))
  (Hn : (0 <= n)%Z)
  (Hne : rows (bp_domain self) <> [] \/ n = 0%Z) :
  exists (t' : table) (g' : RandomState) (indices : list nat),
    sample_uniform self g n = Ok (Array2 t', g') /\
    shape (Array2 t') = [Z.to_nat n; ncols (bp_domain self)] /\
    length indices = Z.to_nat n /\
    Forall (fun i => i < nrows (bp_domain self)) indices /\
    rows t' = map (fun i => nth i (rows (bp_domain self)) []) indices /\
    (forall r, In r (rows t') ->
               In r (rows (bp_domain self)) /\
               (Forall not_nan r ->
                check_in_domain self (QArray (Array1 r)) = Ok true)) /\
    (n = 0%Z -> rows t' = []).
Proof.
  set (N := nrows (bp_domain self)).
  set (idx := choice_indices g N (Z.to_nat n)).
  assert (Hlen : length idx = Z.to_nat n).
  { unfold idx, choice_indices. rewrite length_map, length_seq. reflexivity. }
  assert (Hidx : Forall (fun i => i < N) idx).
  { destruct Hne as [Hne | ->].
    - apply choice_indices_bound. unfold N, nrows.
      destruct (rows (bp_domain self)); [congruence | simpl; lia].
    - unfold idx. simpl. constructor. }
  assert (Hchoice : random_choice g N n
                    = Ok (idx, {| draws := draws g;
                                  position := position g + Z.to_nat n |})).
  { unfold random_choice.
    replace (n <? 0)%Z with false by (symmetry; apply Z.ltb_ge; exact Hn).
    destruct Hne as [Hne | ->].
    - replace (N =? 0) with false; [reflexivity |].
      symmetry. apply Nat.eqb_neq. unfold N, nrows.
      destruct (rows (bp_domain self)); [congruence | simpl; lia].
    - simpl. rewrite andb_false_r. reflexivity. }
  exists {| ncols := ncols (bp_domain self);
            rows := map (fun i => nth i (rows (bp_domain self)) []) idx |},
         {| draws := draws g; position := position g + Z.to_nat n |}, idx.
  split.
  { unfold sample_uniform. fold N. rewrite Hchoice. simpl.
    rewrite (take_rows_value _ _ Hidx). reflexivity. }
  split.
  { simpl. unfold nrows. simpl. rewrite length_map, Hlen. reflexivity. }
  split; [exact Hlen |]. split; [exact Hidx |]. split; [reflexivity |].
  split.
  - simpl. intros r Hr. apply in_map_iff in Hr.
    destruct Hr as [i [<- Hi]]. rewrite Forall_forall in Hidx.
    assert (Hin : In (nth i (rows (bp_domain self)) [])
                     (rows (bp_domain self)))
      by (apply nth_In; apply Hidx; exact Hi).
    split; [exact Hin |]. intros Hnan. apply check_domain_row; assumption.
  - intros ->. reflexivity.
Qed.

Lemma sample_uniform_rows_witness :
  exists (t' : table) (g' : RandomState),
    sample_uniform example_self example_rng 4 = Ok (Array2 t', g') /\
    shape (Array2 t') = [4; 2].
Proof.
  assert (Hn : (0 <= 4)%Z) by lia.
  assert (Hne : rows (bp_domain example_self) <> [] \/ 4%Z = 0%Z)
    by (left; discriminate).
  destruct (sample_uniform_rows example_self example_rng 4
              example_table_ok Hn Hne)
    as [t' [g' [_ [H [Hs _]]]]].
  exists t', g'. split; assumption.
Defined.

(** C6 as stated fails on a domain without rows, and on a row with a NaN
    entry.  The BanditParameter over a table of shape (0, 2) is
    constructed, and asking it for one point raises instead of returning
    a table of shape (1, 2); over the table [[nan, 1]] the one row that
    can be drawn does not pass [check_in_domain]. *)
Lemma sample_uniform_empty_domain :
  (__init__ "e" (NdArray float64 (Array2 empty_table)) None = Ok empty_self /\
   (0 <= 1)%Z /\
   sample_uniform empty_self example_rng 1
   = Raise (ValueError
              "a must be greater than 0 unless no samples are taken")) /\
  (__init__ "n" (NdArray float64 (Array2 (bp_domain nan_row_self))) None
   = Ok nan_row_self /\
   sample_uniform nan_row_self example_rng 1
   = Ok (Array2 {| ncols := 2; rows := [[PrimFloat.nan; 1]]%float |},
         {| draws := draws example_rng; position := 1 |}) /\
   check_in_domain nan_row_self (QArray (Array1 [PrimFloat.nan; 1]%float))
   = Ok false).
Proof.
  split; [split; [reflexivity | split; [lia | reflexivity]] |].
  repeat split; reflexivity.
Qed.

(** ** Errors of round *)

Lemma for_each_exists {A B : Type} (body : A -> result B) (P : B -> Prop) :
  forall l : list A,
    (forall a, In a l -> exists b, body a = Ok b /\ P b) ->
    exists bs, for_each body l = Ok bs /\ Forall P bs /\
               length bs = length l.
Proof.
  induction l as [| a l IH]; simpl; intros H.
  - exists []. repeat split. constructor.
  - destruct (H a (or_introl eq_refl)) as [b [Hb HP]].
    destruct IH as [bs [Hbs [HPs Hlen]]].
    { intros a' Ha'. apply H. right. exact Ha'. }
    exists (b :: bs). rewrite Hb, Hbs. simpl.
    repeat split; [constructor; assumption | f_equal; exact Hlen].
Qed.

Lemma round_row_returns (self : BanditParameter) (row : list float) :
  table_ok (bp_domain self) ->
  issubdtype_number (bp_dtype self) = true ->
  rows (bp_domain self) <> [] ->
  length row = ncols (bp_domain self) ->
  exists r, round_row self row = Ok r /\ In r (rows (bp_domain self)).
Proof.
  intros Hok Hnum Hne Hlen. unfold round_row, np_dists.
  rewrite Hnum, Hlen, broadcastable_refl. simpl.
  unfold table_ok in Hok. rewrite Forall_forall in Hok.
  destruct (py_min_returns
              (fun d => diff <- np_subtract (bp_dtype self) d row ;;
                        Ok (linalg_norm diff))
              (fun d => distance d row) (rows (bp_domain self)) Hne)
    as [v Hv].
  - intros d Hd. apply round_key_distance; [exact Hnum |].
    rewrite Hlen. apply Hok, Hd.
  - exists v. rewrite Hv. simpl. split; [reflexivity |].
    exact (py_min_In _ _ _ Hv).
Qed.

Lemma row_stack_returns (xr : list (list float)) (c : nat) :
  xr <> [] -> Forall (fun r => length r = c) xr ->
  row_stack xr = Ok (Array2 {| ncols := c; rows := xr |}).
Proof.
  intros Hne Hall. unfold row_stack.
  destruct xr as [| r xr']; [congruence |].
  assert (Hr : length r = c) by (inversion Hall; assumption).
  replace (forallb (fun r' => length r' =? length r) (r :: xr')) with true.
  - rewrite Hr. reflexivity.
  - symmetry. apply forallb_forall. intros r' Hr'.
    rewrite Forall_forall in Hall. rewrite (Hall r' Hr'), Hr.
    apply Nat.eqb_refl.
Qed.

(** C8, as the code has it: [round] raises, and returns nothing, when its
    input is not 2-d and when the number of its columns is not the value
    of [dimension]; over a numeric domain with at least one row and no
    NaN entry, whose dimension is its number of columns, [round] returns
    for every 2-d input that has exactly that many columns and at least
    one row. *)
Theorem round_errors (self : BanditParameter) (x : ndarray) (tx : table) :
  (ndim x <> 2 -> round self x = Raise (ValueError msg_not_2d)) /\
  (ndim x = 2 ->
   (forall d, dimension self = Ok d -> shape1 x <> d) ->
   is_ok (round self x) = false /\
   (is_ok (dimension self) = true ->
    round self x = Raise (ValueError msg_columns))) /\
  (table_ok (bp_domain self) ->
   Forall (Forall not_nan) (rows (bp_domain self)) ->
   issubdtype_number (bp_dtype self) = true ->
   dimension self = Ok (ncols (bp_domain self)) ->
   rows (bp_domain self) <> [] ->
   table_ok tx -> ncols tx = ncols (bp_domain self) -> rows tx <> [] ->
   exists out, round self (Array2 tx) = Ok out).
Proof.
  split; [| split].
  - intros Hnd. unfold round. apply Nat.eqb_neq in Hnd. rewrite Hnd.
    reflexivity.
  - intros Hnd Hsh. unfold round. rewrite Hnd. simpl.
    destruct (dimension self) as [d | e]; simpl.
    + specialize (Hsh d eq_refl). apply Nat.eqb_neq in Hsh. rewrite Hsh.
      simpl. auto.
    + split; [reflexivity | discriminate].
  - intros Hdom Hnan Hnum Hdim Hrows Hx Hcols Hne.
    unfold round. simpl. rewrite Hdim. simpl.
    unfold shape1. simpl. rewrite Hcols, Nat.eqb_refl. simpl.
    destruct (for_each_exists (round_row self)
                (fun r => In r (rows (bp_domain self))) (rows tx))
      as [xr [Hxr [Hin Hlen]]].
    { intros row Hrow. apply round_row_returns; try assumption.
      unfold table_ok in Hx. rewrite Forall_forall in Hx.
      rewrite <- Hcols. apply Hx, Hrow. }
    rewrite Hxr. simpl.
    rewrite (round_row_checks self xr Hdom Hnan Hin). simpl.
    replace (forallb (fun b => b) (map (fun _ => true) xr)) with true.
    + eexists. apply (row_stack_returns xr (ncols (bp_domain self))).
      * intros E. rewrite E in Hlen. simpl in Hlen.
        destruct (rows tx); [congruence | discriminate].
      * unfold table_ok in Hdom. rewrite Forall_forall in *.
        intros r Hr. apply Hdom, Hin, Hr.
    + symmetry. apply forallb_forall. intros b Hb.
      apply in_map_iff in Hb. destruct Hb as [_ [<- _]]. reflexivity.
Qed.

Lemma round_errors_witness :
  exists out, round example_self example_query = Ok out.
Proof.
  assert (Hx : table_ok {| ncols := 2; rows := [[1.2; 10.9]]%float |})
    by (unfold table_ok; simpl; repeat constructor).
  assert (Hnan : Forall (Forall not_nan) (rows (bp_domain example_self)))
    by (simpl; repeat constructor).
  assert (Hrows : rows (bp_domain example_self) <> []) by discriminate.
  assert (Hne : rows {| ncols := 2; rows := [[1.2; 10.9]]%float |} <> [])
    by discriminate.
  exact (proj2 (proj2
    (round_errors example_self example_query
       {| ncols := 2; rows := [[1.2; 10.9]]%float |}))
    example_table_ok Hnan eq_refl eq_refl Hrows Hx eq_refl Hne).
Defined.

(** C8 as stated fails on a domain without rows and on a domain with a
    NaN entry.  Both inputs below are 2-d and have exactly [dimension] = 2
    columns.  Over the table of shape (0, 2) [round] raises because there
    is no row to select; over [[nan, 1], [0, 0]] the scan keeps the first
    row (no distance compares below NaN), which fails the membership
    check of line 98, and the assertion raises. *)
Lemma round_empty_domain :
  (__init__ "e" (NdArray float64 (Array2 empty_table)) None = Ok empty_self /\
   dimension empty_self = Ok 2 /\
   ndim example_query = 2 /\ shape1 example_query = 2 /\
   round empty_self example_query
   = Raise (ValueError "min() arg is an empty sequence")) /\
  (__init__ "n" (NdArray float64 (Array2 (bp_domain nan_self))) None
   = Ok nan_self /\
   dimension nan_self = Ok 2 /\
   round nan_self (Array2 {| ncols := 2; rows := [[0; 0]]%float |})
   = Raise AssertionError).
Proof. repeat split; reflexivity. Qed.

(** * Further properties *)

(** ** round, continued *)

Lemma for_each_app {A B : Type} (body : A -> result B) :
  forall (l1 l2 : list A) (b1 b2 : list B),
    for_each body l1 = Ok b1 -> for_each body l2 = Ok b2 ->
    for_each body (l1 ++ l2) = Ok (b1 ++ b2).
Proof.
  induction l1 as [| a l1 IH]; simpl; intros l2 b1 b2 H1 H2.
  - injection H1 as <-. exact H2.
  - apply bind_ok in H1. destruct H1 as [b [Hb H1]].
    apply bind_ok in H1. destruct H1 as [bs [Hbs H1]]. injection H1 as <-.
    rewrite Hb. simpl. rewrite (IH l2 bs b2 Hbs H2). reflexivity.
Qed.

(** X3: [round] works row by row.  When two inputs with the same number
    of columns are accepted, so is the input made of the rows of the first
    followed by the rows of the second, and its result is the rows of the
    first result followed by the rows of the second. *)
Theorem round_concatenation (self : BanditParameter)
  (c : nat) (rows1 rows2 : list (list float)) (out1 out2 : ndarray)
  (Hdom : table_ok (bp_domain self))
  (H1 : round self (Array2 {| ncols := c; rows := rows1 |}) = Ok out1)
  (H2 : round self (Array2 {| ncols := c; rows := rows2 |}) = Ok out2) :
  round self (Array2 {| ncols := c; rows := rows1 ++ rows2 |})
  = Ok (Array2 {| ncols := ncols (bp_domain self);
                  rows := iter_rows out1 ++ iter_rows out2 |}).
Proof.
  apply round_inv in H1.
  destruct H1 as [_ [dim [xr1 [ch1 [Hdim [Hsh [Hxr1 [Hch1 [Hall1 Hst1]]]]]]]]].
  apply round_inv in H2.
  destruct H2 as [_ [dim2 [xr2 [ch2 [_ [_ [Hxr2 [Hch2 [Hall2 Hst2]]]]]]]]].
  destruct (row_stack_rows _ _ Hst1) as [-> Hne1].
  destruct (row_stack_rows _ _ Hst2) as [-> _].
  unfold shape1 in Hsh. simpl in Hsh, Hxr1, Hxr2. subst dim.
  unfold round. simpl. rewrite Hdim. simpl. unfold shape1. simpl.
  rewrite Nat.eqb_refl. simpl.
  rewrite (for_each_app _ _ _ _ _ Hxr1 Hxr2). simpl.
  rewrite (for_each_app _ _ _ _ _ Hch1 Hch2). simpl.
  rewrite forallb_app, Hall1, Hall2. simpl.
  apply row_stack_returns.
  - destruct xr1; [congruence | discriminate].
  - apply Forall_app.
    unfold table_ok in Hdom. rewrite Forall_forall in Hdom.
    split; apply Forall_forall; intros r Hr; apply Hdom.
    + pose proof (for_each_rows_in _ _ _ Hxr1) as Hin.
      rewrite Forall_forall in Hin. apply Hin, Hr.
    + pose proof (for_each_rows_in _ _ _ Hxr2) as Hin.
      rewrite Forall_forall in Hin. apply Hin, Hr.
Qed.

Lemma round_concatenation_witness :
  round example_self
    (Array2 {| ncols := 2; rows := [[1.2; 10.9]; [5; 0]]%float |})
  = Ok (Array2 {| ncols := 2; rows := [[1; 10]; [2; 10]]%float |}).
Proof.
  exact (round_concatenation example_self 2
           [[1.2; 10.9]]%float [[5; 0]]%float
           (Array2 {| ncols := 2; rows := [[1; 10]]%float |})
           (Array2 {| ncols := 2; rows := [[2; 10]]%float |})
           example_table_ok eq_refl eq_refl).
Defined.

(** X4: an input without rows is not rounded to an empty table.  With
    the right number of columns it passes both shape checks, the loop
    collects nothing, and stacking nothing raises. *)
Theorem round_no_rows (self : BanditParameter) (c : nat)
  (Hdim : dimension self = Ok c) :
  round self (Array2 {| ncols := c; rows := [] |})
  = Raise (ValueError "need at least one array to concatenate").
Proof.
  unfold round. simpl. rewrite Hdim. simpl. unfold shape1. simpl.
  rewrite Nat.eqb_refl. reflexivity.
Qed.

Lemma round_no_rows_witness :
  round example_self (Array2 {| ncols := 2; rows := [] |})
  = Raise (ValueError "need at least one array to concatenate").
Proof. exact (round_no_rows example_self 2 eq_refl). Defined.

(** ** check_in_domain, continued *)

Lemma any_all_existsb {A : Type} (f : A -> list bool) (l : list A) :
  any (all_axis1 (map f l)) = existsb (fun r => forallb (fun b => b) (f r)) l.
Proof.
  unfold any, all_axis1. induction l as [| r l IH]; simpl;
    [| rewrite IH]; reflexivity.
Qed.

Lemma existsb_same_members {A : Type} (g : A -> bool) (l1 l2 : list A) :
  (forall r, In r l1 <-> In r l2) -> existsb g l1 = existsb g l2.
Proof.
  intros H. apply eq_true_iff_eq. rewrite !existsb_exists.
  split; intros [r [Hr Hg]]; exists r; (split; [apply H; exact Hr | exact Hg]).
Qed.

Lemma forallb_scalar (v : float) (r : list float) :
  forallb (fun b => b) (map (fun u => PrimFloat.eqb u v) r) = true <->
  Forall (fun u => same u v) r.
Proof.
  unfold same. induction r as [| u r IH]; simpl.
  - split; [constructor | reflexivity].
  - rewrite andb_true_iff, IH. split.
    + intros [Hu Hr]. constructor; assumption.
    + intros H. inversion H; subst. split; assumption.
Qed.

(** X5: a scalar, and likewise a 1-d point with a single entry, is
    accepted whatever the number of columns, and is compared with every
    entry of a row: the answer is [true] exactly when some domain row has
    all its entries equal to that value. *)
Theorem check_in_domain_scalar (self : BanditParameter) (v : float) :
  exists b : bool,
    check_in_domain self (QFloat v) = Ok b /\
    check_in_domain self (QArray (Array0 v)) = Ok b /\
    check_in_domain self (QArray (Array1 [v])) = Ok b /\
    (b = true <->
     exists r, In r (rows (bp_domain self)) /\
               Forall (fun u => same u v) r).
Proof.
  exists (existsb (fun r => forallb (fun b => b)
                              (map (fun u => PrimFloat.eqb u v) r))
                  (rows (bp_domain self))).
  assert (Hs : check_in_domain self (QFloat v) = Ok (existsb
            (fun r => forallb (fun b => b) (map (fun u => PrimFloat.eqb u v) r))
            (rows (bp_domain self)))).
  { unfold check_in_domain. simpl. rewrite any_all_existsb. reflexivity. }
  split; [exact Hs |]. split; [exact Hs |]. split.
  - unfold check_in_domain. simpl.
    replace (broadcastable (ncols (bp_domain self)) 1) with true
      by (unfold broadcastable; simpl; rewrite orb_true_r; reflexivity).
    simpl. rewrite any_all_existsb. f_equal. clear Hs.
    induction (rows (bp_domain self)) as [| r l IH]; simpl;
      [| rewrite IH, broadcast_one_entry]; reflexivity.
  - rewrite existsb_exists.
    split; intros [r [Hr H]]; exists r; (split; [exact Hr |]);
      apply forallb_scalar; exact H.
Qed.

Lemma forallb_against_value (u : float) (x : list float) :
  forallb (fun b => b) (broadcast PrimFloat.eqb [u] x) = true <->
  Forall (fun v => same u v) x.
Proof.
  unfold broadcast, same. induction x as [| v x IH]; simpl.
  - split; [constructor | reflexivity].
  - rewrite andb_true_iff, IH. split.
    + intros [Hu Hr]. constructor; assumption.
    + intros H. inversion H; subst. split; assumption.
Qed.

(** X6: over a domain with a single column, a 1-d array of any length is
    accepted, and the answer is [true] exactly when one domain value
    equals every entry of the array.  It is not a test of the entries one
    by one: in the domain {[0],[2]} the array [0, 2] gives [false] though
    [0] and [2] each give [true]. *)
Theorem check_in_domain_single_column (self : BanditParameter) (x : list float)
  (Hok : table_ok (bp_domain self))
  (Hone : ncols (bp_domain self) = 1) :
  (exists b : bool,
      check_in_domain self (QArray (Array1 x)) = Ok b /\
      (b = true <->
       exists u, In [u] (rows (bp_domain self)) /\
                 Forall (fun v => same u v) x)) /\
  (check_in_domain tie_self (QArray (Array1 [0; 2]%float)) = Ok false /\
   check_in_domain tie_self (QArray (Array1 [0]%float)) = Ok true /\
   check_in_domain tie_self (QArray (Array1 [2]%float)) = Ok true).
Proof.
  split; [| repeat split; reflexivity].
  exists (existsb (fun r => forallb (fun b => b) (broadcast PrimFloat.eqb r x))
                  (rows (bp_domain self))).
  split.
  - unfold check_in_domain. simpl. rewrite Hone.
    replace (broadcastable 1 (length x)) with true
      by (unfold broadcastable; simpl; rewrite orb_true_r; reflexivity).
    simpl. rewrite any_all_existsb. reflexivity.
  - unfold table_ok in Hok. rewrite Hone, Forall_forall in Hok.
    rewrite existsb_exists. split.
    + intros [r [Hr H]]. specialize (Hok r Hr).
      destruct r as [| u [| u' r']]; simpl in Hok; try discriminate.
      exists u. split; [exact Hr | apply forallb_against_value; exact H].
    + intros [u [Hr H]]. exists [u].
      split; [exact Hr | apply forallb_against_value; exact H].
Qed.

Lemma check_in_domain_single_column_witness :
  exists b : bool,
    check_in_domain tie_self (QArray (Array1 [2; 2; 2]%float)) = Ok b /\
    (b = true <->
     exists u, In [u] (rows (bp_domain tie_self)) /\
               Forall (fun v => same u v) [2; 2; 2]%float).
Proof.
  assert (Hok : table_ok (bp_domain tie_self))
    by (unfold table_ok; simpl; repeat constructor).
  exact (proj1 (check_in_domain_single_column tie_self [2; 2; 2]%float
                  Hok eq_refl)).
Defined.

(** X7: a 1-d point whose length is neither the number of columns nor 1,
    over a domain with more or fewer than one column, cannot be compared
    with the rows: [check_in_domain] raises and returns no boolean. *)
Theorem check_in_domain_wrong_length (self : BanditParameter) (x : list float)
  (Hlen : length x <> ncols (bp_domain self))
  (Hx : length x <> 1)
  (Hcols : ncols (bp_domain self) <> 1) :
  exists e : exn, check_in_domain self (QArray (Array1 x)) = Raise e.
Proof.
  exists (ValueError msg_broadcast).
  unfold check_in_domain. simpl. unfold broadcastable.
  apply Nat.neq_sym, Nat.eqb_neq in Hlen.
  apply Nat.eqb_neq in Hx. apply Nat.eqb_neq in Hcols.
  rewrite Hlen, Hx, Hcols. reflexivity.
Qed.

Lemma check_in_domain_wrong_length_witness :
  exists e : exn,
    check_in_domain example_self (QArray (Array1 [1; 10; 20]%float)) = Raise e.
Proof.
  apply (check_in_domain_wrong_length example_self [1; 10; 20]%float);
    simpl; discriminate.
Defined.

(** X8: membership looks at the domain as a set of rows.  Two tables with
    the same number of columns and the same rows, in whatever order and
    however often repeated, answer every query alike. *)
Theorem check_in_domain_row_set (self other : BanditParameter) (x : query)
  (Hcols : ncols (bp_domain self) = ncols (bp_domain other))
  (Hrows : forall r, In r (rows (bp_domain self)) <->
                     In r (rows (bp_domain other))) :
  check_in_domain self x = check_in_domain other x.
Proof.
  unfold check_in_domain. destruct (normalise x) as [[v | xs] | e]; simpl;
    [| | reflexivity].
  - rewrite !any_all_existsb. f_equal.
    apply existsb_same_members. exact Hrows.
  - rewrite <- Hcols.
    destruct (broadcastable (ncols (bp_domain self)) (length xs)); simpl;
      [| reflexivity].
    rewrite !any_all_existsb. f_equal.
    apply existsb_same_members. exact Hrows.
Qed.

Lemma check_in_domain_row_set_witness :
  check_in_domain example_self (QArray (Array1 [1; 20]%float))
  = check_in_domain shuffled_self (QArray (Array1 [1; 20]%float)).
Proof.
  apply (check_in_domain_row_set example_self shuffled_self
           (QArray (Array1 [1; 20]%float)) eq_refl).
  intros r. simpl. tauto.
Defined.

(** ** Construction, continued *)

Lemma create_parameters_numeric (self_name : string) (dt : dtype)
  (domain : table) (names : option (list string)) :
  length (effective_names self_name domain names) = ncols domain ->
  issubdtype_number dt = true \/ ncols domain = 0 ->
  _create_parameters self_name dt domain names
  = Ok (reflected domain (effective_names self_name domain names)).
Proof.
  intros Hlen Hnum. rewrite create_parameters_unfold, Hlen, Nat.eqb_refl.
  simpl. unfold reflected. apply for_each_total. intros [cix n] Hin.
  destruct Hnum as [-> | H0]; [reflexivity |].
  rewrite H0 in Hlen. apply length_zero_iff_nil in Hlen.
  rewrite Hlen in Hin. destruct Hin.
Qed.

Lemma construction_succeeds_shape (name : string) (dom : pyobject)
  (names : option (list string)) (self : BanditParameter) :
  __init__ name dom names = Ok self ->
  exists (dt : dtype) (t : table),
    length (effective_names name t names) = ncols t /\
    self = {| bp_name := name; bp_dtype := dt; bp_domain := t;
              parameters := reflected t (effective_names name t names) |}.
Proof.
  intros H. pose proof (constructed_shape _ _ _ _ H) as [_ [_ Hnum]].
  pose proof (init_inv _ _ _ _ H) as [_ [Hname Hps]].
  exists (bp_dtype self), (bp_domain self).
  assert (Hlen : length (effective_names name (bp_domain self) names)
                 = ncols (bp_domain self)).
  { rewrite create_parameters_unfold in Hps.
    destruct (ncols (bp_domain self) =? _) eqn:E; simpl in Hps;
      [| discriminate].
    apply Nat.eqb_eq in E. symmetry. exact E. }
  assert (Hcase : issubdtype_number (bp_dtype self) = true \/
                  ncols (bp_domain self) = 0).
  { destruct (ncols (bp_domain self)) as [| c] eqn:E; [right; reflexivity |].
    left. apply Hnum. lia. }
  split; [exact Hlen |].
  rewrite (create_parameters_numeric _ _ _ _ Hlen Hcase) in Hps.
  injection Hps as Hps. destruct self as [n d t ps]. simpl in *.
  subst. reflexivity.
Qed.

(** X9: when construction succeeds, and what it builds.  [__init__]
    returns exactly when the domain is a 2-d array, the names in force
    (the supplied ones, or the default ones for no list or an empty list)
    are as many as the columns, and the table is numeric or has no column
    at all.  The object then holds the given name, the table as given, and
    one Discrete descriptor per name, over the values of its column. *)
Theorem construction_succeeds_iff (name : string) (dom : pyobject)
  (names : option (list string)) (self : BanditParameter) :
  __init__ name dom names = Ok self <->
  exists (dt : dtype) (t : table),
    dom = NdArray dt (Array2 t) /\
    length (effective_names name t names) = ncols t /\
    (issubdtype_number dt = true \/ ncols t = 0) /\
    self = {| bp_name := name; bp_dtype := dt; bp_domain := t;
              parameters := reflected t (effective_names name t names) |}.
Proof.
  split.
  - intros H. pose proof (constructed_shape _ _ _ _ H) as [_ [_ Hnum]].
    pose proof (init_inv _ _ _ _ H) as [Hdom [Hname Hps]].
    exists (bp_dtype self), (bp_domain self).
    assert (Hlen : length (effective_names name (bp_domain self) names)
                   = ncols (bp_domain self)).
    { rewrite create_parameters_unfold in Hps.
      destruct (ncols (bp_domain self) =? _) eqn:E; simpl in Hps;
        [| discriminate].
      apply Nat.eqb_eq in E. symmetry. exact E. }
    assert (Hcase : issubdtype_number (bp_dtype self) = true \/
                    ncols (bp_domain self) = 0).
    { destruct (ncols (bp_domain self)) as [| c] eqn:E; [right; reflexivity |].
      left. apply Hnum. lia. }
    split; [exact Hdom |]. split; [exact Hlen |]. split; [exact Hcase |].
    rewrite (create_parameters_numeric _ _ _ _ Hlen Hcase) in Hps.
    injection Hps as Hps. destruct self as [n d t ps]. simpl in *.
    subst. reflexivity.
  - intros [dt [t [-> [Hlen [Hnum ->]]]]]. unfold __init__.
    rewrite (create_parameters_numeric _ _ _ _ Hlen Hnum). reflexivity.
Qed.

Lemma nth_error_enumerate_from {A : Type} :
  forall (l : list A) (k i : nat) (a : A),
    nth_error l i = Some a ->
    nth_error (enumerate_from k l) i = Some (k + i, a).
Proof.
  induction l as [| x l IH]; intros k [| i] a H; simpl in *;
    try discriminate.
  - injection H as <-. rewrite Nat.add_0_r. reflexivity.
  - rewrite (IH (S k) i a H). f_equal. f_equal. lia.
Qed.

Lemma reflected_nth (domain : table) (parameter_names : list string)
  (i : nat) (n : string) :
  nth_error parameter_names i = Some n ->
  nth_error (reflected domain parameter_names) i
  = Some (DiscreteParameter n (np_unique (column domain i))).
Proof.
  intros H. unfold reflected, enumerate.
  rewrite nth_error_map, (nth_error_enumerate_from _ 0 i n H). reflexivity.
Qed.

(** X10: descriptor [i] governs column [i].  In a constructed object the
    descriptor at position [i] is the Discrete descriptor over the
    distinct values of column [i] of the domain; it bears the [i]-th
    supplied name when a non-empty list of names was supplied, and the
    object's name followed by [_i] otherwise. *)
Theorem constructed_alignment (name : string) (dom : pyobject)
  (names : option (list string)) (self : BanditParameter) (i : nat)
  (H : __init__ name dom names = Ok self)
  (Hi : i < ncols (bp_domain self)) :
  exists n : string,
    nth_error (parameters self) i
    = Some (DiscreteParameter n (np_unique (column (bp_domain self) i))) /\
    (forall l, names = Some l -> l <> [] -> nth_error l i = Some n) /\
    (names = None \/ names = Some [] ->
     n = (name ++ "_" ++ string_of_nat i)%string).
Proof.
  apply construction_succeeds_shape in H.
  destruct H as [dt [t [Hlen ->]]]. simpl in *.
  destruct (nth_error (effective_names name t names) i) as [n |] eqn:En.
  2: { apply nth_error_None in En. lia. }
  exists n. split; [apply reflected_nth; exact En |]. split.
  - intros l -> Hne. destruct l as [| x l]; [congruence | exact En].
  - intros Hdef.
    assert (E : effective_names name t names
                = _create_parameter_names name t)
      by (destruct Hdef as [-> | ->]; reflexivity).
    rewrite E in En. unfold _create_parameter_names in En.
    rewrite nth_error_map in En.
    rewrite (nth_error_nth' _ 0) in En by (rewrite length_seq; exact Hi).
    rewrite seq_nth in En by exact Hi. simpl in En.
    injection En as <-. reflexivity.
Qed.

Lemma construction_succeeds_iff_witness :
  __init__ "x" (NdArray float64 (Array2 example_table)) None
  = Ok example_self.
Proof.
  apply (proj2 (construction_succeeds_iff "x"
                  (NdArray float64 (Array2 example_table)) None
                  example_self)).
  exists float64, example_table.
  split; [reflexivity |]. split; [reflexivity |].
  split; [left |]; reflexivity.
Defined.

Lemma constructed_alignment_witness :
  exists n : string,
    nth_error (parameters example_self) 1
    = Some (DiscreteParameter n
              (np_unique (column (bp_domain example_self) 1))) /\
    (forall l, @None (list string) = Some l -> l <> [] ->
               nth_error l 1 = Some n) /\
    (@None (list string) = None \/ @None (list string) = Some [] ->
     n = ("x" ++ "_" ++ string_of_nat 1)%string).
Proof.
  assert (Hi : 1 < ncols (bp_domain example_self)) by (simpl; lia).
  exact (constructed_alignment "x" (NdArray float64 (Array2 example_table))
           None example_self 1 eq_refl Hi).
Defined.

Lemma string_of_nat_inj (i j : nat) :
  string_of_nat i = string_of_nat j -> i = j.
Proof.
  unfold string_of_nat. intros H.
  apply DecimalNat.Unsigned.to_uint_inj.
  apply (f_equal NilEmpty.uint_of_string) in H.
  rewrite !NilEmpty.usu in H. injection H as H. exact H.
Qed.

Lemma append_inj_r : forall s t u : string,
  (s ++ t)%string = (s ++ u)%string -> t = u.
Proof.
  induction s as [| c s IH]; simpl; intros t u H.
  - exact H.
  - injection H as H. apply IH. exact H.
Qed.

(** X11: the default names never clash.  The names made up for the
    columns of a domain are as many as the columns and pairwise
    distinct. *)
Theorem default_names_distinct (self_name : string) (domain : table) :
  length (_create_parameter_names self_name domain) = ncols domain /\
  NoDup (_create_parameter_names self_name domain).
Proof.
  split; [apply default_names_length |].
  unfold _create_parameter_names.
  apply NoDup_map_NoDup_ForallPairs; [| apply seq_NoDup].
  intros i j _ _ H.
  apply append_inj_r, append_inj_r in H.
  apply string_of_nat_inj. exact H.
Qed.

(** ** round and sample_uniform, continued *)

(** X14: [round] asks for [dimension] before it looks at any row.  When
    a descriptor of a kind without a branch in [dimension] is present,
    [round] raises the "not supported" exception on every 2-d input,
    whatever its rows and columns. *)
Theorem round_unsupported (self : BanditParameter) (x : ndarray)
  (Hkind : forallb supported (parameters self) = false)
  (Hnd : ndim x = 2) :
  round self x = Raise (Exception msg_unsupported).
Proof.
  unfold round. rewrite Hnd, dimension_value, Hkind. reflexivity.
Qed.

Lemma round_unsupported_witness :
  round other_self example_query = Raise (Exception msg_unsupported).
Proof. exact (round_unsupported other_self example_query eq_refl eq_refl). Defined.

(** X15: with a single valid combination there is nothing to draw.
    Over a domain of one row, [sample_uniform] returns that row repeated
    [n] times for every count [n >= 0], whatever the state of the
    generator. *)
Theorem sample_uniform_single_row (self : BanditParameter)
  (g : RandomState) (n : Z) (r : list float)
  (Hrow : rows (bp_domain self) = [r])
  (Hn : (0 <= n)%Z) :
  exists g',
    sample_uniform self g n
    = Ok (Array2 {| ncols := ncols (bp_domain self);
                    rows := repeat r (Z.to_nat n) |}, g').
Proof.
  eexists. unfold sample_uniform, random_choice, nrows. rewrite Hrow.
  replace (n <? 0)%Z with false by (symmetry; apply Z.ltb_ge; exact Hn).
  simpl. unfold take_rows. rewrite Hrow.
  rewrite (for_each_total _ (fun _ => r)).
  - simpl. f_equal. f_equal. f_equal. f_equal.
    rewrite map_map. generalize 0 at 1.
    induction (Z.to_nat n) as [| k IH]; intros s0; simpl;
      [| rewrite IH]; reflexivity.
  - intros i Hi. apply in_map_iff in Hi. destruct Hi as [j [<- _]].
    reflexivity.
Qed.

Lemma sample_uniform_single_row_witness :
  exists g',
    sample_uniform single_self example_rng 3
    = Ok (Array2 {| ncols := 2; rows := [[3; 4]; [3; 4]; [3; 4]]%float |}, g').
Proof.
  assert (Hn : (0 <= 3)%Z) by lia.
  exact (sample_uniform_single_row single_self example_rng 3 [3; 4]%float
           eq_refl Hn).
Defined.

